(** * fp-switch-on: a verified model of the dispatch functions

    The package exports four functions, [basedOn], [switchOn],
    [basedOnPartial] and [switchOnPartial].  Two versions of the module are in
    the repository: the one of [src/index.ts], whose dispatcher takes the
    choice alone and calls the handler without arguments, and a second one
    whose dispatcher takes the choice and rest arguments and forwards both to
    the handler.  Both are embedded here, in the modules [Index] and
    [Variadic].

    The embedding is shallow.  A JavaScript function is a Rocq function into a
    state-and-exception monad [M]: the state is the ambient world that the
    handlers may read and write (the console, captured variables, the
    objects), the exception is a thrown JavaScript value.  A dispatch table is
    the finite map of the own data properties of the object that was passed
    as [paths]; the members that the object inherits from its prototype chain
    are read from the world.  In [Variadic] and [Index] the table is the
    content of the object at the time of the invocation; in [Shared] it is a
    location of the world, read at each invocation, as the closure of the
    source keeps the object.  Accessor properties are not modelled, a
    function is called without its receiver (what a handler learns of the
    table it reads from the world), and handlers are total: a call of a
    handler completes, normally or by a throw. *)

From Stdlib Require Import ZArith String List Ascii.
From stdpp Require Import base option gmap strings pretty.

Local Open Scope Z_scope.
Local Open Scope string_scope.

(** ** Values *)

Module JS.

(** Reference to a function object. *)
Definition fid := nat.

(** The values that flow through the dispatchers.  Numbers are the safe
    integers, which print as their decimal; an error object is identified by
    its constructor's name. *)
#[warnings="-register-all"]
Inductive value :=
| VUndefined
| VNull
| VBool (b : bool)
| VNum (n : Z)
| VStr (s : string)
| VSym (n : positive)
| VArr (items : list value)
| VObj (fields : list (string * value))
| VFun (f : fid)
| VError (name : string).

Arguments VFun f%_nat.

(** ToBoolean. *)
Definition truthy (v : value) : bool :=
  match v with
  | VUndefined | VNull => false
  | VBool b => b
  | VNum n => negb (Z.eqb n 0)
  | VStr s => negb (String.eqb s "")
  | VSym _ | VArr _ | VObj _ | VFun _ | VError _ => true
  end.

(** IsCallable. *)
Definition callable (v : value) : bool :=
  match v with VFun _ => true | _ => false end.

(** Property keys: strings and symbols. *)
Inductive key :=
| KStr (s : string)
| KSym (n : positive).

#[global] Instance key_eq_dec : EqDecision key.
Proof. solve_decision. Defined.

Definition key_to_sum (k : key) : string + positive :=
  match k with KStr s => inl s | KSym n => inr n end.

Definition key_of_sum (x : string + positive) : key :=
  match x with inl s => KStr s | inr n => KSym n end.

#[global] Instance key_countable : Countable key.
Proof.
  refine (inj_countable' key_to_sum key_of_sum _).
  intros k; destruct k; reflexivity.
Defined.

(** The type parameter [T extends string | number | symbol] of the
    dispatchers. *)
Inductive Choice :=
| CStr (s : string)
| CNum (n : Z)
| CSym (n : positive).

(** The choice as the value a handler receives. *)
Definition choice_value (c : Choice) : value :=
  match c with
  | CStr s => VStr s
  | CNum n => VNum n
  | CSym n => VSym n
  end.

Coercion choice_value : Choice >-> value.

(** ToPropertyKey: a number indexes by its decimal string, so the choices
    [5] and ['5'] read the same entry. *)
Definition to_key (c : Choice) : key :=
  match c with
  | CStr s => KStr s
  | CNum n => KStr (pretty n)
  | CSym n => KSym n
  end.

(** A dispatch table: the own properties of [paths]. *)
Abbreviation table := (gmap key value).

(** ** Completions and the monad of function bodies *)

Inductive completion (A : Type) :=
| Normal (a : A)
| Throw (e : value).

Arguments Normal {A} a.
Arguments Throw {A} e.

(** The host: the ambient mutable world, the code of the function objects
    and the members that a table inherits from its prototype chain (for an
    object literal, the members of [Object.prototype]) in a world.  The
    dispatchers treat all three as opaque. *)
Class Host := {
  World : Type;
  closures : fid -> list value -> World -> completion value * World;
  inherited : World -> table
}.

Section Monad.
Context `{Host}.

(** The value of [paths[choice]] in a world: the own property when there is
    one, otherwise the inherited member, otherwise [undefined]. *)
Definition get (w : World) (paths : table) (choice : Choice) : value :=
  match paths !! to_key choice with
  | Some v => v
  | None => default VUndefined (inherited w !! to_key choice)
  end.

Definition M (A : Type) : Type := World -> completion A * World.

Definition ret {A} (a : A) : M A := fun w => (Normal a, w).

Definition throw {A} (e : value) : M A := fun w => (Throw e, w).

Definition bind {A B} (m : M A) (k : A -> M B) : M B :=
  fun w =>
    match m w with
    | (Normal a, w') => k a w'
    | (Throw e, w') => (Throw e, w')
    end.

(** [try { m } catch ...] at the caller: the completion made a value. *)
Definition observe {A} (m : M A) : M (completion A) :=
  fun w => let (r, w') := m w in (Normal r, w').

(** The expression [paths[choice]]. *)
Definition member (paths : table) (choice : Choice) : M value :=
  fun w => (Normal (get w paths choice), w).

(** The error of calling something that is not a function. *)
Definition TypeError : value := VError "TypeError".

(** [f(...args)] for an already evaluated callee and argument list. *)
Definition call (f : value) (args : list value) : M value :=
  match f with
  | VFun g => closures g args
  | _ => throw TypeError
  end.

(** [a && b]: [b] is evaluated only when [a] is truthy, otherwise the
    value of [a] is the result. *)
Definition and_then (a : value) (b : M value) : M value :=
  if truthy a then b else ret a.

End Monad.

Notation "x <- m ;; k" := (bind m (fun x => k))
  (at level 100, m at next level, right associativity).

End JS.

Import JS.

(** ** The module with rest arguments

    [[
    export const basedOn =
      <T extends string | number | symbol, P extends any[] = void[]>(
        paths: Record<T, (...args: [T, ...P]) => void>
      ) =>
      (choice: T, ...rest: P) => {
        return paths[choice](choice, ...rest);
      };
    export const switchOn = basedOn;
    export const basedOnPartial =
      <T extends string | number | symbol, P extends any[] = void[]>(
        paths: Partial<Record<T, (...args: [T, ...P]) => void>>
      ) =>
      (choice: T, ...rest: P) => {
        return paths[choice] && paths[choice](choice, ...rest);
      };
    export const switchOnPartial = basedOnPartial;
    ]] *)

Module Variadic.
Section Dispatch.
Context `{Host}.

(** The inner arrow function [(choice, ...rest) => ...]. *)
Definition dispatcher : Type := Choice -> list value -> M value.

Definition basedOn (paths : table) : M dispatcher :=
  ret (fun choice rest =>
         f <- member paths choice ;;
         call f (choice_value choice :: rest)).

Definition switchOn : table -> M dispatcher := basedOn.

Definition basedOnPartial (paths : table) : M dispatcher :=
  ret (fun choice rest =>
         a <- member paths choice ;;
         and_then a (f <- member paths choice ;;
                     call f (choice_value choice :: rest))).

Definition switchOnPartial : table -> M dispatcher := basedOnPartial.

(** The expression [ctor(paths)(choice, ...rest)]. *)
Definition invoke (ctor : table -> M dispatcher)
    (paths : table) (choice : Choice) (rest : list value) : M value :=
  d <- ctor paths ;; d choice rest.

End Dispatch.
End Variadic.

(** ** The module of [src/index.ts]

    [[
    export const basedOn =
      <T extends string | number | symbol>(paths: Record<T, () => void>) =>
      (choice: T) => {
        return paths[choice]();
      };
    export const switchOn = basedOn;
    export const basedOnPartial =
      <T extends string | number | symbol>(paths: Partial<Record<T, () => void>>) =>
      (choice: T) => {
        return paths[choice] && paths[choice]();
      };
    export const switchOnPartial = basedOnPartial;
    ]] *)

Module Index.
Section Dispatch.
Context `{Host}.

(** The inner arrow function [(choice) => ...]. *)
Definition dispatcher : Type := Choice -> M value.

Definition basedOn (paths : table) : M dispatcher :=
  ret (fun choice => f <- member paths choice ;; call f []).

Definition switchOn : table -> M dispatcher := basedOn.

Definition basedOnPartial (paths : table) : M dispatcher :=
  ret (fun choice =>
         a <- member paths choice ;;
         and_then a (f <- member paths choice ;; call f [])).

Definition switchOnPartial : table -> M dispatcher := basedOnPartial.

(** The expression [ctor(paths)(choice)]. *)
Definition invoke (ctor : table -> M dispatcher)
    (paths : table) (choice : Choice) : M value :=
  d <- ctor paths ;; d choice.

End Dispatch.
End Index.

(** ** The table as a shared object

    The constructors keep the object they were given: the inner arrow
    function closes over the variable [paths] and reads [paths[choice]] when
    it is invoked.  Here the table lives in the world, at a location, and the
    dispatchers are built from the location; a handler may change the object
    between two invocations. *)

Module Shared.

Definition loc := nat.

(** The own properties of the objects of a world, by location. *)
Class Heap (H : Host) := {
  objects : World -> loc -> table
}.

Section Dispatch.
Context {H : Host} {Hp : Heap H}.

(** [paths[choice]] on the object at [paths]. *)
Definition get (paths : loc) (choice : Choice) : M value :=
  fun w => (Normal (JS.get w (objects w paths) choice), w).

Definition dispatcher : Type := Choice -> list value -> M value.

Definition basedOn (paths : loc) : M dispatcher :=
  ret (fun choice rest =>
         f <- get paths choice ;;
         call f (choice_value choice :: rest)).

Definition basedOnPartial (paths : loc) : M dispatcher :=
  ret (fun choice rest =>
         a <- get paths choice ;;
         if truthy a
         then f <- get paths choice ;;
              call f (choice_value choice :: rest)
         else ret a).

(** [const d = ctor(paths)] followed by two calls [d(choice, ...rest)],
    each one observed by its completion. *)
Definition invoke_twice (ctor : loc -> M dispatcher)
    (paths : loc) (choice : Choice) (rest : list value)
    : M (completion value * completion value) :=
  d <- ctor paths ;;
  r1 <- observe (d choice rest) ;;
  r2 <- observe (d choice rest) ;;
  ret (r1, r2).

(** The call of the function [f] with [args] in the world [w] leaves [f]
    as what [paths[choice]] reads. *)
Definition entry_kept (paths : loc) (choice : Choice)
    (f : fid) (args : list value) (w : World) : Prop :=
  JS.get (closures f args w).2 (objects (closures f args w).2 paths) choice
  = VFun f.

End Dispatch.

(** The dispatchers of [src/index.ts] on the object at a location. *)
Module Index.
Section Dispatch.
Context {H : Host} {Hp : Heap H}.

Definition dispatcher : Type := Choice -> M value.

Definition basedOn (paths : loc) : M dispatcher :=
  ret (fun choice => f <- get paths choice ;; call f []).

Definition basedOnPartial (paths : loc) : M dispatcher :=
  ret (fun choice =>
         a <- get paths choice ;;
         if truthy a
         then f <- get paths choice ;; call f []
         else ret a).

Definition invoke_twice (ctor : loc -> M dispatcher)
    (paths : loc) (choice : Choice)
    : M (completion value * completion value) :=
  d <- ctor paths ;;
  r1 <- observe (d choice) ;;
  r2 <- observe (d choice) ;;
  ret (r1, r2).

End Dispatch.
End Index.

End Shared.

(** ** Tables, domains and handlers *)

(** A table covers a domain when it has a function of its own at every
    member. *)
Definition covers (D : list Choice) (paths : table) : bool :=
  forallb (fun c => callable (default VUndefined (paths !! to_key c))) D.

(** A handler call whose completion is the same in every world. *)
Definition state_independent `{Host} (f : fid) (args : list value) : Prop :=
  forall w w' : World, (closures f args w).1 = (closures f args w').1.

(** A handler that does not look at its arguments, as the type
    [() => void] describes it. *)
Definition nullary `{Host} (f : fid) : Prop :=
  forall (args : list value) (w : World), closures f args w = closures f [] w.

(** The first character of a string is a digit or a minus sign. *)
Definition numeric_head (s : string) : bool :=
  match s with
  | String a _ => (nat_of_ascii a <? 58)%nat
  | EmptyString => false
  end.

(** ** The members of [Object.prototype] *)

Module Builtin.

(** The part of [Object.prototype] that the hosts below give to their
    tables: [toString], the function object [base], and [__proto__], which
    reads as the prototype object.  The other members ([constructor],
    [valueOf], [hasOwnProperty], ...), whose results depend on the object
    they are called on, are not part of these hosts. *)
Definition object_prototype (base : fid) : table :=
  {[ KStr "toString" := VFun base;
     KStr "__proto__" := VObj [] ]}.

(** The result of the [k]-th function of [object_prototype], called on an
    object literal without a [Symbol.toStringTag]. *)
Definition code (k : nat) : value :=
  match k with
  | 0%nat => VStr "[object Object]"
  | _ => VUndefined
  end.

End Builtin.

(** ** A host to run the examples of the documentation *)

Module Demo.

(** The source text of the functions of this host, which is what a function
    prints as. *)
Definition source (f : fid) : string :=
  match f with
  | 0%nat => "() => 'one'"
  | 1%nat => "() => 'two'"
  | 2%nat => "() => 'three'"
  | 3%nat => "(choice) => `My choice is ${choice} !!!`"
  | 4%nat => "(choice, opts) => opts.enhance ? 'YES' : 'NO'"
  | 5%nat => "(...args) => args"
  | 6%nat => "() => n++"
  | 7%nat => "() => { throw new Error() }"
  | 8%nat => "(x?) => x"
  | 100%nat => "function toString() { [native code] }"
  | _ => ""
  end.

(** ToString, as a template literal applies it: [None] is the [TypeError]
    thrown for a symbol.  An object prints as an object without a [toString]
    of its own does. *)
Fixpoint to_string (v : value) : option string :=
  match v with
  | VUndefined => Some "undefined"
  | VNull => Some "null"
  | VBool true => Some "true"
  | VBool false => Some "false"
  | VNum n => Some (pretty n)
  | VStr s => Some s
  | VSym _ => None
  | VArr items =>
      (fix join (l : list value) : option string :=
         match l with
         | [] => Some ""
         | x :: l' =>
             match (match x with
                    | VUndefined | VNull => Some ""
                    | _ => to_string x
                    end), join l' with
             | Some s, Some t =>
                 Some (match l' with [] => s | _ :: _ => s ++ "," ++ t end)
             | _, _ => None
             end
         end) items
  | VObj _ => Some "[object Object]"
  | VFun f => Some (source f)
  | VError name => Some name
  end.

(** The own field [name] of an object literal. *)
Definition field (fields : list (string * value)) (name : string) : value :=
  match find (fun p => String.eqb p.1 name) fields with
  | Some p => p.2
  | None => VUndefined
  end.

(** [opts.enhance]: a [TypeError] on [undefined] and [null], the own field
    of an object literal, [undefined] on the other values. *)
Definition enhance_of (opts : value) : option value :=
  match opts with
  | VUndefined | VNull => None
  | VObj fields => Some (field fields "enhance")
  | _ => Some VUndefined
  end.

(** The functions of the README, a counter and a failing handler.  The
    world is the captured variable [n] of the counter.
    - 0, 1, 2: [() => 'one'], [() => 'two'], [() => 'three']
    - 3: [(choice) => `My choice is ${choice} !!!`]
    - 4: [(choice, opts) => opts.enhance ? 'YES' : 'NO']
    - 5: [(...args) => args]
    - 6: [() => n++]
    - 7: [() => { throw new Error() }]
    - 8: [(x?) => x]
    - 100: [Object.prototype.toString] *)
Definition code (f : fid) (args : list value) (n : Z)
    : completion value * Z :=
  match f with
  | 0%nat => (Normal (VStr "one"), n)
  | 1%nat => (Normal (VStr "two"), n)
  | 2%nat => (Normal (VStr "three"), n)
  | 3%nat =>
      match to_string (nth 0 args VUndefined) with
      | Some s => (Normal (VStr ("My choice is " ++ s ++ " !!!")), n)
      | None => (Throw TypeError, n)
      end
  | 4%nat =>
      match enhance_of (nth 1 args VUndefined) with
      | Some e => (Normal (if truthy e then VStr "YES" else VStr "NO"), n)
      | None => (Throw TypeError, n)
      end
  | 5%nat => (Normal (VArr args), n)
  | 6%nat => (Normal (VNum n), n + 1)
  | 7%nat => (Throw (VError "Error"), n)
  | 8%nat => (Normal (nth 0 args VUndefined), n)
  | _ => (Normal (if (100 <=? f)%nat then Builtin.code (f - 100)
                  else VUndefined), n)
  end.

Definition host : Host :=
  {| World := Z;
     closures := code;
     inherited := fun _ => Builtin.object_prototype 100%nat |}.

Definition digits : table :=
  {[ KStr "1" := VFun 0; KStr "2" := VFun 1; KStr "3" := VFun 2 ]}.

Definition exclaim : table :=
  {[ KStr "3" := VFun 3; KStr "5" := VFun 3; KStr "7" := VFun 3 ]}.

Definition enhance : table :=
  {[ KStr "3" := VFun 4; KStr "5" := VFun 4 ]}.

(** [{a: (x?) => x}] *)
Definition first_arg : table := {[ KStr "a" := VFun 8 ]}.

(** [{7: (...args) => args}] *)
Definition echo : table := {[ KStr "7" := VFun 5 ]}.

(** [{tick: () => n++}] *)
Definition counter : table := {[ KStr "tick" := VFun 6 ]}.

(** [{x: () => { throw new Error() }}] *)
Definition failing : table := {[ KStr "x" := VFun 7 ]}.

(** [{a: undefined, b: () => 'one'}] *)
Definition holes : table := {[ KStr "a" := VUndefined; KStr "b" := VFun 0 ]}.

(** [{a: () => 'one'}] *)
Definition single : table := {[ KStr "a" := VFun 0 ]}.

(** [{toString: undefined}] *)
Definition hidden : table := {[ KStr "toString" := VUndefined ]}.

(** The tables above as the objects of the host, none of which its
    functions change: [counter] is at location 0, [exclaim] at 1. *)
Definition heap : Shared.Heap host :=
  {| Shared.objects := fun (_ : @World host) (p : Shared.loc) =>
       nth p [counter; exclaim] ∅ |}.

End Demo.

(** ** A host whose functions change the table *)

Module Mutating.

(** The world is one object, found at every location:
    - 0: [() => { delete paths.once; return 'done' }]
    - 1: [() => 'late']
    - 100: [Object.prototype.toString] *)
Definition code (f : fid) (args : list value) (t : table)
    : completion value * table :=
  match f with
  | 0%nat => (Normal (VStr "done"), delete (KStr "once") t)
  | 1%nat => (Normal (VStr "late"), t)
  | _ => (Normal (if (100 <=? f)%nat then Builtin.code (f - 100)
                  else VUndefined), t)
  end.

Definition host : Host :=
  {| World := table;
     closures := code;
     inherited := fun _ => Builtin.object_prototype 100%nat |}.

Definition heap : Shared.Heap host :=
  {| Shared.objects := fun (t : @World host) (_ : Shared.loc) => t |}.

End Mutating.

(** ** A table built from a list

    The README builds a table with [reduce]:
    [[
    const convertDigitToName = switchOnPartial(digitNames.reduce((acc, val, ind) => {
      acc[ind] = () => val
      return acc
    }, {}))
    ]] *)

Module Readme.

(** The iterations of [reduce] from index [ind] on: the function created at
    index [ind] is the function object [ind]. *)
Fixpoint reduce_from (ind : nat) (names : list string) (acc : table) : table :=
  match names with
  | [] => acc
  | _ :: rest =>
      reduce_from (S ind) rest
        (<[ to_key (CNum (Z.of_nat ind)) := VFun ind ]> acc)
  end.

Definition digit_table (names : list string) : table :=
  reduce_from 0 names ∅.

(** The function object [ind] is [() => val] for the [val] of index [ind];
    the function objects after them are those of [Object.prototype], which
    the table built from [{}] inherits.  The functions have no effect on the
    world. *)
Definition names_host (W : Type) (names : list string) : Host :=
  {| World := W;
     closures := fun f _ w =>
       (Normal (match names !! f with
                | Some s => VStr s
                | None => Builtin.code (f - length names)
                end), w);
     inherited := fun _ => Builtin.object_prototype (length names) |}.

(** The array of the README. *)
Definition digitNames : list string :=
  ["zero"; "one"; "two"; "three"; "four"; "five"; "six"; "seven"; "eight";
   "nine"].

End Readme.

(** The example scenarios of the specification. *)

Example scenario_1 :
  @Variadic.invoke Demo.host Variadic.basedOn Demo.digits (CNum 1) [] 0
  = (Normal (VStr "one"), 0).
Proof. vm_compute. reflexivity. Qed.

Example scenario_1_index :
  @Index.invoke Demo.host Index.basedOn Demo.digits (CNum 1) 0
  = (Normal (VStr "one"), 0).
Proof. vm_compute. reflexivity. Qed.

Example scenario_2 :
  @Variadic.invoke Demo.host Variadic.basedOnPartial Demo.digits (CNum 10) [] 0
  = (Normal VUndefined, 0).
Proof. vm_compute. reflexivity. Qed.

Example scenario_3 :
  @Variadic.invoke Demo.host Variadic.basedOnPartial Demo.exclaim (CNum 5) [] 0
  = (Normal (VStr "My choice is 5 !!!"), 0).
Proof. vm_compute. reflexivity. Qed.

Example scenario_4 :
  @Variadic.invoke Demo.host Variadic.basedOnPartial Demo.enhance (CNum 5)
    [VObj [("enhance", VBool true)]] 0
  = (Normal (VStr "YES"), 0).
Proof. vm_compute. reflexivity. Qed.

Example readme_errors_out :
  @Variadic.invoke Demo.host Variadic.basedOn Demo.digits (CNum 10) [] 0
  = (Throw TypeError, 0).
Proof. vm_compute. reflexivity. Qed.

(** ** Reading the table *)

Section Lookup.
Context `{Host}.

Lemma get_lookup_Some (w : World) (paths : table) (c : Choice) (v : value) :
  paths !! to_key c = Some v -> get w paths c = v.
Proof. unfold get. intros ->. reflexivity. Qed.

Lemma get_lookup_None (w : World) (paths : table) (c : Choice) :
  paths !! to_key c = None -> inherited w !! to_key c = None ->
  get w paths c = VUndefined.
Proof. unfold get. intros -> ->. reflexivity. Qed.

Lemma get_lookup_inherited
    (w : World) (paths : table) (c : Choice) (v : value) :
  paths !! to_key c = None -> inherited w !! to_key c = Some v ->
  get w paths c = v.
Proof. unfold get. intros -> ->. reflexivity. Qed.

Lemma covers_elem (D : list Choice) (paths : table) (c : Choice) :
  covers D paths = true -> c ∈ D ->
  exists f, paths !! to_key c = Some (VFun f).
Proof.
  unfold covers. rewrite forallb_forall. intros Hall Hin.
  apply list_elem_of_In, Hall in Hin.
  destruct (paths !! to_key c) as [v|]; simpl in Hin; [|discriminate].
  destruct v; simpl in Hin; try discriminate. eauto.
Qed.

End Lookup.

(** ** One invocation, unfolded *)

Section Invocation.
Context `{Host}.

Lemma variadic_basedOn_unfold paths c rest w :
  Variadic.invoke Variadic.basedOn paths c rest w
  = call (get w paths c) (choice_value c :: rest) w.
Proof. reflexivity. Qed.

Lemma variadic_basedOnPartial_unfold paths c rest w :
  Variadic.invoke Variadic.basedOnPartial paths c rest w
  = and_then (get w paths c)
             (call (get w paths c) (choice_value c :: rest)) w.
Proof.
  unfold Variadic.invoke, Variadic.basedOnPartial, bind, ret, member, and_then.
  destruct (truthy (get w paths c)); reflexivity.
Qed.

Lemma index_basedOn_unfold paths c w :
  Index.invoke Index.basedOn paths c w = call (get w paths c) [] w.
Proof. reflexivity. Qed.

Lemma index_basedOnPartial_unfold paths c w :
  Index.invoke Index.basedOnPartial paths c w
  = and_then (get w paths c) (call (get w paths c) []) w.
Proof.
  unfold Index.invoke, Index.basedOnPartial, bind, ret, member, and_then.
  destruct (truthy (get w paths c)); reflexivity.
Qed.

(** A function is truthy, so [&&] goes on to the call. *)
Lemma and_then_fun f (m : M value) w :
  and_then (VFun f) m w = m w.
Proof. reflexivity. Qed.

(** The presence test of the partial mode is ToBoolean of the entry: a
    falsy entry is the result, and nothing is called. *)
Lemma and_then_falsy (v : value) (m : M value) w :
  truthy v = false -> and_then v m w = (Normal v, w).
Proof. unfold and_then. intros ->. reflexivity. Qed.

(** A truthy entry makes the partial mode the exhaustive one. *)
Lemma and_then_truthy (v : value) (m : M value) w :
  truthy v = true -> and_then v m w = m w.
Proof. unfold and_then. intros ->. reflexivity. Qed.

(** The call of a value that is not a function. *)
Lemma call_not_callable (v : value) (args : list value) (w : World) :
  callable v = false -> call v args w = (Throw TypeError, w).
Proof. destruct v; simpl; try discriminate; reflexivity. Qed.

(** A falsy value is not a function. *)
Lemma falsy_not_callable (v : value) : truthy v = false -> callable v = false.
Proof. destruct v; simpl; try discriminate; reflexivity. Qed.

End Invocation.

Create Rewrite HintDb dispatch.

#[global] Hint Rewrite
  @variadic_basedOn_unfold @variadic_basedOnPartial_unfold
  @index_basedOn_unfold @index_basedOnPartial_unfold : dispatch.

(** Unfold the invocations and read the own entry found by the
    hypothesis. *)
Ltac dispatch_at Hlook :=
  autorewrite with dispatch;
  rewrite ?(get_lookup_Some _ _ _ _ Hlook);
  simpl.

(** The same for a choice with no entry, own or inherited. *)
Ltac dispatch_none Hown Hinh :=
  autorewrite with dispatch;
  rewrite ?(get_lookup_None _ _ _ Hown Hinh);
  simpl.

(** The same for a choice whose entry is inherited. *)
Ltac dispatch_inherited Hown Hinh :=
  autorewrite with dispatch;
  rewrite ?(get_lookup_inherited _ _ _ _ Hown Hinh);
  simpl.

Ltac by_evaluation := vm_compute; reflexivity.

(** ** The matched handler *)

Section Matched.
Context `{Host}.

(** C1 (as amended).  For a table that has a handler at every member of
    the domain [D], and a choice [c] of [D]: the dispatcher with rest
    arguments returns exactly the completion of [M[c](c, ...extra)]; the
    dispatcher of [src/index.ts] takes the choice alone and returns the
    completion of [M[c]()], which is that of [M[c](c, ...extra)] whenever
    the handler does not look at its arguments. *)
Theorem basedOn_total_mapping
    (D : list Choice) (paths : table) (c : Choice)
    (rest : list value) (w : World) :
  covers D paths = true -> c ∈ D ->
  exists f,
    paths !! to_key c = Some (VFun f)
    /\ Variadic.invoke Variadic.basedOn paths c rest w
       = closures f (choice_value c :: rest) w
    /\ Index.invoke Index.basedOn paths c w = closures f [] w
    /\ (nullary f ->
        Index.invoke Index.basedOn paths c w
        = closures f (choice_value c :: rest) w).
Proof.
  intros Hcov Hin.
  destruct (covers_elem D paths c Hcov Hin) as [f Hf].
  exists f. split; [exact Hf|].
  repeat split; try (dispatch_at Hf; reflexivity).
  intros Hnull. dispatch_at Hf. symmetry. apply Hnull.
Qed.

(** C2 (as amended).  When the table has a handler at the choice, the
    dispatcher with rest arguments, in the exhaustive and in the partial
    mode, calls it with the choice first and the extra arguments after it,
    unchanged and in order, and its completion is the handler's; the
    dispatcher of [src/index.ts], in both modes, calls the handler with no
    argument and its completion is the handler's. *)
Theorem dispatch_forwards_arguments
    (paths : table) (c : Choice) (f : fid)
    (rest : list value) (w : World) :
  paths !! to_key c = Some (VFun f) ->
  Variadic.invoke Variadic.basedOn paths c rest w
    = closures f (choice_value c :: rest) w
  /\ Variadic.invoke Variadic.basedOnPartial paths c rest w
    = closures f (choice_value c :: rest) w
  /\ Index.invoke Index.basedOn paths c w = closures f [] w
  /\ Index.invoke Index.basedOnPartial paths c w = closures f [] w.
Proof.
  intros Hf. repeat split; dispatch_at Hf; reflexivity.
Qed.

(** C5.  When the table has a handler at the choice, the partial
    dispatcher returns exactly the completion of [M'[c](c, ...extra)], the
    same as the exhaustive dispatcher built from the same table. *)
Theorem basedOnPartial_agrees_with_basedOn
    (paths : table) (c : Choice) (f : fid)
    (rest : list value) (w : World) :
  paths !! to_key c = Some (VFun f) ->
  Variadic.invoke Variadic.basedOnPartial paths c rest w
    = closures f (choice_value c :: rest) w
  /\ Variadic.invoke Variadic.basedOnPartial paths c rest w
    = Variadic.invoke Variadic.basedOn paths c rest w.
Proof.
  intros Hf. split.
  - dispatch_at Hf. reflexivity.
  - rewrite variadic_basedOnPartial_unfold, variadic_basedOn_unfold.
    rewrite (get_lookup_Some _ _ _ _ Hf). apply and_then_fun.
Qed.

(** C8.  An error thrown by the matched handler is the completion of the
    dispatcher, in both modes and in both modules: the thrown value and
    the world the handler left are passed on as they are. *)
Theorem handler_error_propagates
    (paths : table) (c : Choice) (f : fid)
    (rest : list value) (e : value) (w w' : World) :
  paths !! to_key c = Some (VFun f) ->
  (closures f (choice_value c :: rest) w = (Throw e, w') ->
   Variadic.invoke Variadic.basedOn paths c rest w = (Throw e, w')
   /\ Variadic.invoke Variadic.basedOnPartial paths c rest w
      = (Throw e, w'))
  /\ (closures f [] w = (Throw e, w') ->
      Index.invoke Index.basedOn paths c w = (Throw e, w')
      /\ Index.invoke Index.basedOnPartial paths c w = (Throw e, w')).
Proof.
  intros Hf. split; intros Hthrow; split; dispatch_at Hf; exact Hthrow.
Qed.

End Matched.

(** ** No own entry at the choice *)

(** C3, at the failing input.  The table [{a: () => 'one'}] has no key
    [toString] and no key [__proto__], and the partial dispatcher built from
    it, invoked with ['toString'], calls the function the table inherits
    from [Object.prototype] and returns ['[object Object]'], not
    [undefined]; invoked with ['__proto__'] it throws a [TypeError]. *)
Theorem basedOnPartial_absent_inherited_name :
  Demo.single !! to_key (CStr "toString") = None
  /\ @Variadic.invoke Demo.host Variadic.basedOnPartial Demo.single
       (CStr "toString") [] 0
     = (Normal (VStr "[object Object]"), 0)
  /\ @Index.invoke Demo.host Index.basedOnPartial Demo.single
       (CStr "toString") 0
     = (Normal (VStr "[object Object]"), 0)
  /\ Demo.single !! to_key (CStr "__proto__") = None
  /\ @Variadic.invoke Demo.host Variadic.basedOnPartial Demo.single
       (CStr "__proto__") [] 0
     = (Throw TypeError, 0)
  /\ @Index.invoke Demo.host Index.basedOnPartial Demo.single
       (CStr "__proto__") 0
     = (Throw TypeError, 0).
Proof. repeat split; by_evaluation. Qed.

(** C4, at the failing input.  The table [{a: () => 'one'}], taken as a
    [Record<string, ...>], has no key [toString], and the exhaustive
    dispatcher built from it, invoked with ['toString'], does not throw: it
    calls the function the table inherits from [Object.prototype] and
    returns ['[object Object]']. *)
Theorem basedOn_absent_inherited_name :
  Demo.single !! to_key (CStr "toString") = None
  /\ @Variadic.invoke Demo.host Variadic.basedOn Demo.single
       (CStr "toString") [] 0
     = (Normal (VStr "[object Object]"), 0)
  /\ @Index.invoke Demo.host Index.basedOn Demo.single (CStr "toString") 0
     = (Normal (VStr "[object Object]"), 0).
Proof. repeat split; by_evaluation. Qed.

(** C9, at the failing input.  On the table [{toString: undefined}] the
    partial dispatcher invoked with ['toString'] returns [undefined] and
    calls nothing; on the same table without the key it calls the inherited
    function and returns ['[object Object]'].  Here the entry [undefined]
    does not behave as the absent key does. *)
Theorem undefined_entry_unlike_absent_key :
  Demo.hidden !! to_key (CStr "toString") = Some VUndefined
  /\ @Variadic.invoke Demo.host Variadic.basedOnPartial Demo.hidden
       (CStr "toString") [] 0
     = (Normal VUndefined, 0)
  /\ @Index.invoke Demo.host Index.basedOnPartial Demo.hidden
       (CStr "toString") 0
     = (Normal VUndefined, 0)
  /\ delete (to_key (CStr "toString")) Demo.hidden
       !! to_key (CStr "toString") = None
  /\ @Variadic.invoke Demo.host Variadic.basedOnPartial
       (delete (to_key (CStr "toString")) Demo.hidden) (CStr "toString") [] 0
     = (Normal (VStr "[object Object]"), 0)
  /\ @Index.invoke Demo.host Index.basedOnPartial
       (delete (to_key (CStr "toString")) Demo.hidden) (CStr "toString") 0
     = (Normal (VStr "[object Object]"), 0).
Proof. repeat split; by_evaluation. Qed.

(** ** Aliases *)

Section Aliases.
Context `{Host}.

(** C6.  [switchOn] is [basedOn] and [switchOnPartial] is
    [basedOnPartial], in both modules, so an invocation through either
    name has the same completion. *)
Theorem aliases_interchangeable :
  Variadic.switchOn = Variadic.basedOn
  /\ Variadic.switchOnPartial = Variadic.basedOnPartial
  /\ Index.switchOn = Index.basedOn
  /\ Index.switchOnPartial = Index.basedOnPartial
  /\ (forall paths c rest w,
        Variadic.invoke Variadic.switchOn paths c rest w
        = Variadic.invoke Variadic.basedOn paths c rest w
        /\ Variadic.invoke Variadic.switchOnPartial paths c rest w
           = Variadic.invoke Variadic.basedOnPartial paths c rest w)
  /\ (forall paths c w,
        Index.invoke Index.switchOn paths c w
        = Index.invoke Index.basedOn paths c w
        /\ Index.invoke Index.switchOnPartial paths c w
           = Index.invoke Index.basedOnPartial paths c w).
Proof.
  unfold Variadic.switchOn, Variadic.switchOnPartial,
    Index.switchOn, Index.switchOnPartial.
  repeat split.
Qed.

End Aliases.

(** ** Construction *)

Section Construction.
Context `{Host}.

(** C10.  Whatever the table, also one without any entry for some
    choice, each of the four constructors completes normally with a
    dispatcher and leaves the world as it was: nothing of the table is
    read or checked when a dispatcher is built. *)
Theorem constructors_never_fail (paths : table) (w : World) :
  (exists d, Variadic.basedOn paths w = (Normal d, w))
  /\ (exists d, Variadic.basedOnPartial paths w = (Normal d, w))
  /\ (exists d, Index.basedOn paths w = (Normal d, w))
  /\ (exists d, Index.basedOnPartial paths w = (Normal d, w)).
Proof.
  repeat split; eexists; reflexivity.
Qed.

End Construction.

(** ** Two invocations of one dispatcher *)

Section Twice.
Context {H : Host} {Hp : Shared.Heap H}.

(** Two observed runs of one computation, the second in the world the
    first one left. *)
Lemma run_twice_same (m : M value) (w : World) :
  (exists r w1 w2, m w = (r, w1) /\ m w1 = (r, w2)) ->
  exists r w',
    (r1 <- observe m ;; r2 <- observe m ;; ret (r1, r2)) w
    = (Normal (r, r), w').
Proof.
  intros (r & w1 & w2 & E1 & E2). exists r, w2.
  unfold bind, observe, ret. rewrite E1, E2. reflexivity.
Qed.

(** What the two bodies do on the object at a location. *)
Lemma shared_basedOn_body (p : Shared.loc) (c : Choice) args (w : World) :
  (f <- Shared.get p c ;; call f args) w
  = call (get w (Shared.objects w p) c) args w.
Proof. reflexivity. Qed.

Lemma shared_basedOnPartial_body
    (p : Shared.loc) (c : Choice) args (w : World) :
  (a <- Shared.get p c ;;
   if truthy a then f <- Shared.get p c ;; call f args else ret a) w
  = and_then (get w (Shared.objects w p) c)
             (call (get w (Shared.objects w p) c) args) w.
Proof.
  unfold bind, Shared.get, and_then.
  destruct (truthy (get w (Shared.objects w p) c)); reflexivity.
Qed.

(** A call of what [paths[choice]] reads, and the same call in the world
    it left. *)
Lemma shared_call_twice
    (p : Shared.loc) (c : Choice) (args : list value) (w : World) :
  (forall f, get w (Shared.objects w p) c = VFun f ->
             state_independent f args /\ Shared.entry_kept p c f args w) ->
  exists r w1 w2,
    call (get w (Shared.objects w p) c) args w = (r, w1)
    /\ call (get w1 (Shared.objects w1 p) c) args w1 = (r, w2).
Proof.
  intros Hf.
  destruct (callable (get w (Shared.objects w p) c)) eqn:Hc.
  - destruct (get w (Shared.objects w p) c) eqn:E; try discriminate.
    destruct (Hf f eq_refl) as [Hind Hkept].
    unfold Shared.entry_kept in Hkept. simpl.
    destruct (closures f args w) as [r1 w1] eqn:E1. simpl in Hkept.
    destruct (closures f args w1) as [r2 w2] eqn:E2.
    exists r1, w1, w2. split; [reflexivity|].
    rewrite Hkept. simpl. rewrite E2.
    pose proof (Hind w w1) as Heq. rewrite E1, E2 in Heq. simpl in Heq.
    subst r2. reflexivity.
  - exists (Throw TypeError), w, w.
    split; apply call_not_callable, Hc.
Qed.

(** The same through the test of the partial mode. *)
Lemma shared_test_twice
    (p : Shared.loc) (c : Choice) (args : list value) (w : World) :
  (forall f, get w (Shared.objects w p) c = VFun f ->
             state_independent f args /\ Shared.entry_kept p c f args w) ->
  exists r w1 w2,
    and_then (get w (Shared.objects w p) c)
             (call (get w (Shared.objects w p) c) args) w = (r, w1)
    /\ and_then (get w1 (Shared.objects w1 p) c)
                (call (get w1 (Shared.objects w1 p) c) args) w1 = (r, w2).
Proof.
  intros Hf.
  destruct (callable (get w (Shared.objects w p) c)) eqn:Hc.
  - destruct (get w (Shared.objects w p) c) eqn:E; try discriminate.
    destruct (Hf f eq_refl) as [Hind Hkept].
    unfold Shared.entry_kept in Hkept. rewrite and_then_fun. simpl.
    destruct (closures f args w) as [r1 w1] eqn:E1. simpl in Hkept.
    destruct (closures f args w1) as [r2 w2] eqn:E2.
    exists r1, w1, w2. split; [reflexivity|].
    rewrite Hkept, and_then_fun. simpl. rewrite E2.
    pose proof (Hind w w1) as Heq. rewrite E1, E2 in Heq. simpl in Heq.
    subst r2. reflexivity.
  - destruct (truthy (get w (Shared.objects w p) c)) eqn:Ht.
    + exists (Throw TypeError), w, w.
      rewrite and_then_truthy by exact Ht.
      split; apply call_not_callable, Hc.
    + exists (Normal (get w (Shared.objects w p) c)), w, w.
      split; apply and_then_falsy, Ht.
Qed.

(** C7 (as amended).  One dispatcher, exhaustive or partial, invoked
    twice in sequence with the same choice and arguments completes the
    same way both times whenever the call of the function that
    [paths[choice]] reads completes the same way in every world and leaves
    that function as what [paths[choice]] reads; when [paths[choice]] reads
    no function it always does.  The dispatcher keeps nothing between the
    calls: it reads the table again at each of them. *)
Theorem invoke_twice_same_result
    (p : Shared.loc) (c : Choice) (rest : list value) (w : World) :
  (forall f, get w (Shared.objects w p) c = VFun f ->
             state_independent f (choice_value c :: rest)
             /\ Shared.entry_kept p c f (choice_value c :: rest) w) ->
  (forall f, get w (Shared.objects w p) c = VFun f ->
             state_independent f [] /\ Shared.entry_kept p c f [] w) ->
  (exists r w', Shared.invoke_twice Shared.basedOn p c rest w
                = (Normal (r, r), w'))
  /\ (exists r w', Shared.invoke_twice Shared.basedOnPartial p c rest w
                   = (Normal (r, r), w'))
  /\ (exists r w', Shared.Index.invoke_twice Shared.Index.basedOn p c w
                   = (Normal (r, r), w'))
  /\ (exists r w', Shared.Index.invoke_twice Shared.Index.basedOnPartial
                     p c w
                   = (Normal (r, r), w')).
Proof.
  intros Hv Hi. repeat split; apply run_twice_same.
  - apply (shared_call_twice p c _ w Hv).
  - destruct (shared_test_twice p c _ w Hv) as (r & w1 & w2 & E1 & E2).
    exists r, w1, w2. rewrite !shared_basedOnPartial_body. auto.
  - apply (shared_call_twice p c _ w Hi).
  - destruct (shared_test_twice p c _ w Hi) as (r & w1 & w2 & E1 & E2).
    exists r, w1, w2. rewrite !shared_basedOnPartial_body. auto.
Qed.

End Twice.

(** ** Entries that are not functions *)

Section Entries.
Context `{Host}.

(** In the partial mode a falsy entry ([null], [0], [''], [false] as well as
    [undefined]) is itself the result: the dispatcher returns it normally,
    calls nothing and leaves the world as it was. *)
Theorem basedOnPartial_falsy_entry
    (paths : table) (c : Choice) (v : value)
    (rest : list value) (w : World) :
  paths !! to_key c = Some v -> truthy v = false ->
  Variadic.invoke Variadic.basedOnPartial paths c rest w = (Normal v, w)
  /\ Index.invoke Index.basedOnPartial paths c w = (Normal v, w).
Proof.
  intros Hv Hfalsy.
  rewrite variadic_basedOnPartial_unfold, index_basedOnPartial_unfold.
  rewrite (get_lookup_Some _ _ _ _ Hv).
  split; apply and_then_falsy, Hfalsy.
Qed.

(** An entry that is present but not a function: the exhaustive dispatcher
    throws the [TypeError] whatever the entry is, and the partial dispatcher
    throws it as well when the entry is truthy.  The world is unchanged. *)
Theorem non_function_entry_throws
    (paths : table) (c : Choice) (v : value)
    (rest : list value) (w : World) :
  paths !! to_key c = Some v -> callable v = false ->
  Variadic.invoke Variadic.basedOn paths c rest w = (Throw TypeError, w)
  /\ Index.invoke Index.basedOn paths c w = (Throw TypeError, w)
  /\ (truthy v = true ->
      Variadic.invoke Variadic.basedOnPartial paths c rest w
        = (Throw TypeError, w)
      /\ Index.invoke Index.basedOnPartial paths c w = (Throw TypeError, w)).
Proof.
  intros Hv Hnc.
  rewrite variadic_basedOn_unfold, index_basedOn_unfold,
    variadic_basedOnPartial_unfold, index_basedOnPartial_unfold.
  rewrite (get_lookup_Some _ _ _ _ Hv).
  split; [apply call_not_callable, Hnc|].
  split; [apply call_not_callable, Hnc|].
  intros Ht. rewrite !and_then_truthy by exact Ht.
  split; apply call_not_callable, Hnc.
Qed.

(** The two modes give the same completion exactly when what
    [paths[choice]] reads, own or inherited, is truthy; when it is falsy, or
    when there is nothing to read, the exhaustive mode throws the
    [TypeError] and the partial mode returns what was read, both in an
    unchanged world. *)
Theorem modes_agree_iff_truthy
    (paths : table) (c : Choice) (rest : list value) (w : World) :
  (Variadic.invoke Variadic.basedOnPartial paths c rest w
   = Variadic.invoke Variadic.basedOn paths c rest w
   <-> truthy (get w paths c) = true)
  /\ (Index.invoke Index.basedOnPartial paths c w
      = Index.invoke Index.basedOn paths c w
      <-> truthy (get w paths c) = true)
  /\ (truthy (get w paths c) = false ->
      Variadic.invoke Variadic.basedOn paths c rest w = (Throw TypeError, w)
      /\ Variadic.invoke Variadic.basedOnPartial paths c rest w
         = (Normal (get w paths c), w)
      /\ Index.invoke Index.basedOn paths c w = (Throw TypeError, w)
      /\ Index.invoke Index.basedOnPartial paths c w
         = (Normal (get w paths c), w)).
Proof.
  rewrite variadic_basedOn_unfold, index_basedOn_unfold,
    variadic_basedOnPartial_unfold, index_basedOnPartial_unfold.
  destruct (truthy (get w paths c)) eqn:Ht.
  - rewrite !and_then_truthy by exact Ht.
    split; [tauto|]. split; [tauto|]. discriminate.
  - rewrite !and_then_falsy by exact Ht.
    rewrite !call_not_callable by (apply falsy_not_callable, Ht).
    split; [split; discriminate|]. split; [split; discriminate|].
    intros _. repeat split.
Qed.

(** A choice with no entry of its own and no inherited member: the partial
    dispatcher returns [undefined] and the exhaustive one throws the
    [TypeError], both in an unchanged world. *)
Theorem no_entry_at_all
    (paths : table) (c : Choice) (rest : list value) (w : World) :
  paths !! to_key c = None -> inherited w !! to_key c = None ->
  Variadic.invoke Variadic.basedOnPartial paths c rest w
    = (Normal VUndefined, w)
  /\ Index.invoke Index.basedOnPartial paths c w = (Normal VUndefined, w)
  /\ Variadic.invoke Variadic.basedOn paths c rest w = (Throw TypeError, w)
  /\ Index.invoke Index.basedOn paths c w = (Throw TypeError, w).
Proof.
  intros Hown Hinh. repeat split; dispatch_none Hown Hinh; reflexivity.
Qed.

(** A choice with no entry of its own that names an inherited function:
    both modes call the inherited function, with the choice and the extra
    arguments in the module with rest arguments and with no argument in
    [src/index.ts]. *)
Theorem inherited_function_is_called
    (paths : table) (c : Choice) (f : fid)
    (rest : list value) (w : World) :
  paths !! to_key c = None -> inherited w !! to_key c = Some (VFun f) ->
  Variadic.invoke Variadic.basedOn paths c rest w
    = closures f (choice_value c :: rest) w
  /\ Variadic.invoke Variadic.basedOnPartial paths c rest w
     = closures f (choice_value c :: rest) w
  /\ Index.invoke Index.basedOn paths c w = closures f [] w
  /\ Index.invoke Index.basedOnPartial paths c w = closures f [] w.
Proof.
  intros Hown Hinh. repeat split; dispatch_inherited Hown Hinh; reflexivity.
Qed.

(** A function stored under the key of a choice is the one the dispatchers
    call on that choice, whatever the table held there before and whatever
    it inherits under that name. *)
Theorem stored_handler_is_called
    (paths : table) (c : Choice) (f : fid)
    (rest : list value) (w : World) :
  Variadic.invoke Variadic.basedOn (<[to_key c := VFun f]> paths) c rest w
    = closures f (choice_value c :: rest) w
  /\ Variadic.invoke Variadic.basedOnPartial
       (<[to_key c := VFun f]> paths) c rest w
     = closures f (choice_value c :: rest) w
  /\ Index.invoke Index.basedOn (<[to_key c := VFun f]> paths) c w
     = closures f [] w
  /\ Index.invoke Index.basedOnPartial (<[to_key c := VFun f]> paths) c w
     = closures f [] w.
Proof.
  pose proof (lookup_insert_eq paths (to_key c) (VFun f)) as Hin.
  repeat split; dispatch_at Hin; reflexivity.
Qed.

End Entries.

(** ** The two modules side by side *)

Section Versions.
Context `{Host}.

(** When what [paths[choice]] reads, own or inherited, is not a function,
    or is a function that does not look at its arguments, the dispatchers
    of the two modules have the same completion, in each mode and for any
    extra arguments. *)
Theorem index_agrees_with_variadic
    (paths : table) (c : Choice) (rest : list value) (w : World) :
  (forall f, get w paths c = VFun f -> nullary f) ->
  Variadic.invoke Variadic.basedOn paths c rest w
    = Index.invoke Index.basedOn paths c w
  /\ Variadic.invoke Variadic.basedOnPartial paths c rest w
     = Index.invoke Index.basedOnPartial paths c w.
Proof.
  intros Hnull.
  rewrite variadic_basedOn_unfold, index_basedOn_unfold,
    variadic_basedOnPartial_unfold, index_basedOnPartial_unfold.
  assert (Hcall : call (get w paths c) (choice_value c :: rest) w
                  = call (get w paths c) [] w).
  { destruct (get w paths c) eqn:Hg; try reflexivity.
    simpl. apply (Hnull f eq_refl). }
  split; [exact Hcall|].
  unfold and_then. destruct (truthy (get w paths c)); [exact Hcall|reflexivity].
Qed.

End Versions.

(** ** The table as a shared object *)

Section SharedTable.
Context {H : Host} {Hp : Shared.Heap H}.

(** A dispatcher built from the object at [p] reads the object when it is
    invoked: in the world [w1] it does what a dispatcher built from the
    content of the object in [w1] does, whatever the object held when the
    dispatcher was built. *)
Lemma shared_dispatcher_reads_now (p : Shared.loc) (w0 : World) :
  exists d dp,
    Shared.basedOn p w0 = (Normal d, w0)
    /\ Shared.basedOnPartial p w0 = (Normal dp, w0)
    /\ forall c rest w1,
         d c rest w1
         = Variadic.invoke Variadic.basedOn (Shared.objects w1 p) c rest w1
         /\ dp c rest w1
            = Variadic.invoke Variadic.basedOnPartial
                (Shared.objects w1 p) c rest w1.
Proof.
  eexists. eexists. split; [reflexivity|]. split; [reflexivity|].
  intros c rest w1. cbv beta.
  rewrite variadic_basedOn_unfold, variadic_basedOnPartial_unfold.
  split; [reflexivity|]. apply shared_basedOnPartial_body.
Qed.

(** A function stored in the object after the dispatchers were built is the
    one they call. *)
Theorem handler_stored_later_is_called
    (p : Shared.loc) (w0 w1 : World) (c : Choice) (f : fid)
    (rest : list value) :
  Shared.objects w1 p !! to_key c = Some (VFun f) ->
  exists d dp,
    Shared.basedOn p w0 = (Normal d, w0)
    /\ Shared.basedOnPartial p w0 = (Normal dp, w0)
    /\ d c rest w1 = closures f (choice_value c :: rest) w1
    /\ dp c rest w1 = closures f (choice_value c :: rest) w1.
Proof.
  intros Hf.
  destruct (shared_dispatcher_reads_now p w0) as (d & dp & Hd & Hdp & Hnow).
  exists d, dp. split; [exact Hd|]. split; [exact Hdp|].
  destruct (Hnow c rest w1) as [-> ->].
  split; dispatch_at Hf; reflexivity.
Qed.

(** A handler that removes its own entry from the object, under a name the
    object does not inherit: the first invocation of a dispatcher completes
    as the handler does, and the next one, with the same choice, finds
    nothing to read: the exhaustive dispatcher throws the [TypeError] and
    the partial one returns [undefined]. *)
Theorem handler_removes_own_entry
    (p : Shared.loc) (w w1 : World) (c : Choice) (f : fid)
    (rest : list value) (r : completion value) :
  Shared.objects w p !! to_key c = Some (VFun f) ->
  closures f (choice_value c :: rest) w = (r, w1) ->
  Shared.objects w1 p !! to_key c = None ->
  inherited w1 !! to_key c = None ->
  exists d dp,
    Shared.basedOn p w = (Normal d, w)
    /\ Shared.basedOnPartial p w = (Normal dp, w)
    /\ d c rest w = (r, w1)
    /\ d c rest w1 = (Throw TypeError, w1)
    /\ dp c rest w = (r, w1)
    /\ dp c rest w1 = (Normal VUndefined, w1).
Proof.
  intros Hf Hcall Hgone Hinh.
  destruct (shared_dispatcher_reads_now p w) as (d & dp & Hd & Hdp & Hnow).
  exists d, dp. split; [exact Hd|]. split; [exact Hdp|].
  destruct (Hnow c rest w) as [-> ->].
  destruct (Hnow c rest w1) as [-> ->].
  repeat split;
    first [ dispatch_at Hf; exact Hcall
          | dispatch_none Hgone Hinh; reflexivity ].
Qed.

End SharedTable.

(** ** Numbers as keys *)

(** The decimal of a number starts with a digit or with the minus sign. *)
Lemma pretty_N_go_numeric_head (x : N) :
  forall s, (x = 0%N -> numeric_head s = true) ->
            numeric_head (pretty_N_go x s) = true.
Proof.
  induction (N.lt_wf_0 x) as [x _ IH]. intros s Hs.
  assert (x = 0 \/ 0 < x)%N as [->|Hpos] by lia.
  - rewrite pretty_N_go_0. auto.
  - rewrite pretty_N_go_step by exact Hpos.
    apply IH; [apply N.div_lt; lia|].
    intros _. unfold pretty_N_char.
    repeat case_match; reflexivity.
Qed.

Lemma pretty_Z_numeric_head (n : Z) : numeric_head (pretty n) = true.
Proof.
  destruct n as [|p|p]; try reflexivity.
  unfold pretty, pretty_Z, pretty, pretty_positive, pretty, pretty_N.
  case_decide; [reflexivity|].
  apply pretty_N_go_numeric_head. intros; congruence.
Qed.

(** Two different numbers never select the same entry. *)
Lemma number_keys_distinct (n m : Z) :
  n <> m -> to_key (CNum n) <> to_key (CNum m).
Proof.
  intros Hne Heq. apply Hne. simpl in Heq.
  injection Heq as Heq. exact (inj pretty _ _ Heq).
Qed.

(** A number names none of the members of [Object.prototype]. *)
Lemma object_prototype_no_number (base : fid) (n : Z) :
  Builtin.object_prototype base !! to_key (CNum n) = None.
Proof.
  pose proof (pretty_Z_numeric_head n) as Hhead.
  unfold Builtin.object_prototype. cbn [to_key].
  rewrite lookup_insert_None, lookup_singleton_None.
  repeat split; intros [= Heq]; rewrite <- Heq in Hhead; discriminate.
Qed.

(** ** The table built from a list *)

Section DigitTable.
Context (W : Type).

(** The entries written by the iterations from index [k] on. *)
Lemma reduce_from_lookup (names : list string) :
  forall (k : nat) (acc : table) (n : Z),
    Readme.reduce_from k names acc !! to_key (CNum n)
    = if decide (Z.of_nat k <= n < Z.of_nat k + Z.of_nat (length names))
      then Some (VFun (Z.to_nat n))
      else acc !! to_key (CNum n).
Proof.
  induction names as [|val names IH]; intros k acc n;
    cbn [Readme.reduce_from length].
  - case_decide; [lia|reflexivity].
  - rewrite IH. repeat case_decide; try lia; try reflexivity.
    + assert (n = Z.of_nat k) as -> by lia.
      rewrite Nat2Z.id. apply lookup_insert_eq.
    + apply lookup_insert_ne, number_keys_distinct. lia.
Qed.

(** The dispatcher that the README builds from a list of names returns, on
    an index of the list, the name at that index, in the partial and in the
    exhaustive mode. *)
Theorem digit_table_in_range
    (names : list string) (i : nat) (s : string)
    (rest : list value) (w : W) :
  names !! i = Some s ->
  @Variadic.invoke (Readme.names_host W names) Variadic.switchOnPartial
    (Readme.digit_table names) (CNum (Z.of_nat i)) rest w
  = (Normal (VStr s), w)
  /\ @Variadic.invoke (Readme.names_host W names) Variadic.switchOn
       (Readme.digit_table names) (CNum (Z.of_nat i)) rest w
     = (Normal (VStr s), w).
Proof.
  intros Hs.
  assert (Hlook : Readme.digit_table names !! to_key (CNum (Z.of_nat i))
                  = Some (VFun i)).
  { unfold Readme.digit_table. rewrite reduce_from_lookup.
    apply lookup_lt_Some in Hs. rewrite Nat2Z.id.
    case_decide; [reflexivity|lia]. }
  unfold Variadic.switchOnPartial, Variadic.switchOn.
  rewrite variadic_basedOnPartial_unfold, variadic_basedOn_unfold.
  rewrite (get_lookup_Some _ _ _ _ Hlook), and_then_fun.
  cbv [call closures Readme.names_host]. unfold fid. rewrite Hs.
  split; reflexivity.
Qed.

(** On a number that is not an index of the list the partial dispatcher
    returns [undefined] and the exhaustive one throws the [TypeError]. *)
Theorem digit_table_out_of_range
    (names : list string) (n : Z) (rest : list value) (w : W) :
  n < 0 \/ Z.of_nat (length names) <= n ->
  @Variadic.invoke (Readme.names_host W names) Variadic.switchOnPartial
    (Readme.digit_table names) (CNum n) rest w
  = (Normal VUndefined, w)
  /\ @Variadic.invoke (Readme.names_host W names) Variadic.switchOn
       (Readme.digit_table names) (CNum n) rest w
     = (Throw TypeError, w).
Proof.
  intros Hout.
  assert (Hlook : Readme.digit_table names !! to_key (CNum n) = None).
  { unfold Readme.digit_table. rewrite reduce_from_lookup.
    case_decide; [lia|apply lookup_empty]. }
  assert (Hinh : @inherited (Readme.names_host W names) w !! to_key (CNum n)
                 = None) by apply object_prototype_no_number.
  unfold Variadic.switchOnPartial, Variadic.switchOn.
  split; dispatch_none Hlook Hinh; reflexivity.
Qed.

End DigitTable.

(** ** The theorems at the tables of the documentation *)

Lemma basedOn_total_mapping_witness :
  covers [CNum 1; CNum 2; CNum 3] Demo.digits = true
  /\ CNum 2 ∈ [CNum 1; CNum 2; CNum 3]
  /\ exists f,
      Demo.digits !! to_key (CNum 2) = Some (VFun f)
      /\ @Variadic.invoke Demo.host Variadic.basedOn Demo.digits (CNum 2)
           [VStr "x"] 0
         = @closures Demo.host f [VNum 2; VStr "x"] 0
      /\ @Index.invoke Demo.host Index.basedOn Demo.digits (CNum 2) 0
         = @closures Demo.host f [] 0
      /\ (@nullary Demo.host f ->
          @Index.invoke Demo.host Index.basedOn Demo.digits (CNum 2) 0
          = @closures Demo.host f [VNum 2; VStr "x"] 0).
Proof.
  assert (Hcov : covers [CNum 1; CNum 2; CNum 3] Demo.digits = true)
    by by_evaluation.
  assert (Hin : CNum 2 ∈ [CNum 1; CNum 2; CNum 3])
    by (apply list_elem_of_further, list_elem_of_here).
  split; [exact Hcov|]. split; [exact Hin|].
  exact (@basedOn_total_mapping Demo.host _ _ _ [VStr "x"] 0 Hcov Hin).
Defined.

(** The handler [(x?) => x] under the exhaustive dispatcher of
    [src/index.ts]: it is called without the choice and returns
    [undefined], where [M[c](c)] returns the choice. *)
Lemma index_basedOn_drops_choice :
  covers [CStr "a"] Demo.first_arg = true
  /\ CStr "a" ∈ [CStr "a"]
  /\ @Index.invoke Demo.host Index.basedOn Demo.first_arg (CStr "a") 0
     = (Normal VUndefined, 0)
  /\ @call Demo.host (@get Demo.host 0 Demo.first_arg (CStr "a"))
       [VStr "a"] 0
     = (Normal (VStr "a"), 0)
  /\ @Index.invoke Demo.host Index.basedOn Demo.first_arg (CStr "a") 0
     <> @call Demo.host (@get Demo.host 0 Demo.first_arg (CStr "a"))
          [VStr "a"] 0.
Proof.
  split; [by_evaluation|]. split; [apply list_elem_of_here|].
  split; [by_evaluation|]. split; [by_evaluation|].
  vm_compute. discriminate.
Qed.

Lemma dispatch_forwards_arguments_witness :
  Demo.echo !! to_key (CNum 7) = Some (VFun 5)
  /\ @Variadic.invoke Demo.host Variadic.basedOn Demo.echo (CNum 7)
       [VStr "a"; VStr "b"] 0
     = (Normal (VArr [VNum 7; VStr "a"; VStr "b"]), 0)
  /\ @Variadic.invoke Demo.host Variadic.basedOnPartial Demo.echo (CNum 7)
       [VStr "a"; VStr "b"] 0
     = (Normal (VArr [VNum 7; VStr "a"; VStr "b"]), 0)
  /\ @Index.invoke Demo.host Index.basedOn Demo.echo (CNum 7) 0
     = (Normal (VArr []), 0)
  /\ @Index.invoke Demo.host Index.basedOnPartial Demo.echo (CNum 7) 0
     = (Normal (VArr []), 0).
Proof.
  assert (Hf : Demo.echo !! to_key (CNum 7) = Some (VFun 5))
    by by_evaluation.
  split; [exact Hf|].
  exact (@dispatch_forwards_arguments Demo.host _ _ _
           [VStr "a"; VStr "b"] 0 Hf).
Defined.

(** The handler [(...args) => args] under the partial dispatcher of
    [src/index.ts]: the array it returns is empty, the choice was not
    passed. *)
Lemma index_partial_calls_without_arguments :
  Demo.echo !! to_key (CNum 7) = Some (VFun 5)
  /\ @Index.invoke Demo.host Index.basedOnPartial Demo.echo (CNum 7) 0
     = (Normal (VArr []), 0)
  /\ @closures Demo.host 5%nat [VNum 7] 0 = (Normal (VArr [VNum 7]), 0)
  /\ @Index.invoke Demo.host Index.basedOnPartial Demo.echo (CNum 7) 0
     <> @closures Demo.host 5%nat [VNum 7] 0.
Proof.
  split; [by_evaluation|]. split; [by_evaluation|].
  split; [by_evaluation|]. vm_compute. discriminate.
Qed.

Lemma basedOnPartial_agrees_with_basedOn_witness :
  Demo.exclaim !! to_key (CNum 5) = Some (VFun 3)
  /\ @Variadic.invoke Demo.host Variadic.basedOnPartial Demo.exclaim
       (CNum 5) [] 0
     = (Normal (VStr "My choice is 5 !!!"), 0)
  /\ @Variadic.invoke Demo.host Variadic.basedOnPartial Demo.exclaim
       (CNum 5) [] 0
     = @Variadic.invoke Demo.host Variadic.basedOn Demo.exclaim
         (CNum 5) [] 0.
Proof.
  assert (Hf : Demo.exclaim !! to_key (CNum 5) = Some (VFun 3))
    by by_evaluation.
  split; [exact Hf|].
  exact (@basedOnPartial_agrees_with_basedOn Demo.host _ _ _ [] 0 Hf).
Defined.

Lemma handler_error_propagates_witness :
  Demo.failing !! to_key (CStr "x") = Some (VFun 7)
  /\ @closures Demo.host 7%nat [VStr "x"; VNum 1] 3
     = (Throw (VError "Error"), 3)
  /\ @closures Demo.host 7%nat [] 3 = (Throw (VError "Error"), 3)
  /\ (@Variadic.invoke Demo.host Variadic.basedOn Demo.failing (CStr "x")
        [VNum 1] 3
      = (Throw (VError "Error"), 3)
      /\ @Variadic.invoke Demo.host Variadic.basedOnPartial Demo.failing
           (CStr "x") [VNum 1] 3
         = (Throw (VError "Error"), 3))
  /\ (@Index.invoke Demo.host Index.basedOn Demo.failing (CStr "x") 3
      = (Throw (VError "Error"), 3)
      /\ @Index.invoke Demo.host Index.basedOnPartial Demo.failing
           (CStr "x") 3
         = (Throw (VError "Error"), 3)).
Proof.
  assert (Hf : Demo.failing !! to_key (CStr "x") = Some (VFun 7))
    by by_evaluation.
  assert (Hv : @closures Demo.host 7%nat [VStr "x"; VNum 1] 3
               = (Throw (VError "Error"), 3)) by reflexivity.
  assert (Hi : @closures Demo.host 7%nat [] 3 = (Throw (VError "Error"), 3))
    by reflexivity.
  split; [exact Hf|]. split; [exact Hv|]. split; [exact Hi|].
  destruct (@handler_error_propagates Demo.host _ (CStr "x") _ [VNum 1]
              (VError "Error") 3 3 Hf) as [Hvar Hidx].
  split; [exact (Hvar Hv) | exact (Hidx Hi)].
Defined.

(** [exclamateOnMyChoice] of the README, at location 1, invoked twice with
    5. *)
Lemma invoke_twice_same_result_witness :
  (forall f,
     @get Demo.host 0 (@Shared.objects Demo.host Demo.heap 0 1%nat) (CNum 5)
     = VFun f ->
     @state_independent Demo.host f [VNum 5]
     /\ @Shared.entry_kept Demo.host Demo.heap 1%nat (CNum 5) f [VNum 5] 0)
  /\ (forall f,
        @get Demo.host 0 (@Shared.objects Demo.host Demo.heap 0 1%nat)
          (CNum 5)
        = VFun f ->
        @state_independent Demo.host f []
        /\ @Shared.entry_kept Demo.host Demo.heap 1%nat (CNum 5) f [] 0)
  /\ (exists r w',
        @Shared.invoke_twice Demo.host
          (@Shared.basedOn Demo.host Demo.heap) 1%nat
          (CNum 5) [] 0
        = (Normal (r, r), w'))
  /\ (exists r w',
        @Shared.invoke_twice Demo.host
          (@Shared.basedOnPartial Demo.host Demo.heap) 1%nat
          (CNum 5) [] 0
        = (Normal (r, r), w'))
  /\ (exists r w',
        @Shared.Index.invoke_twice Demo.host
          (@Shared.Index.basedOn Demo.host Demo.heap) 1%nat (CNum 5) 0
        = (Normal (r, r), w'))
  /\ (exists r w',
        @Shared.Index.invoke_twice Demo.host
          (@Shared.Index.basedOnPartial Demo.host Demo.heap) 1%nat (CNum 5) 0
        = (Normal (r, r), w')).
Proof.
  assert (Hv : forall f,
    @get Demo.host 0 (@Shared.objects Demo.host Demo.heap 0 1%nat) (CNum 5)
    = VFun f ->
    @state_independent Demo.host f [VNum 5]
    /\ @Shared.entry_kept Demo.host Demo.heap 1%nat (CNum 5) f [VNum 5] 0).
  { intros f Hf. vm_compute in Hf. injection Hf as <-.
    split; [intros w w'; reflexivity | by_evaluation]. }
  assert (Hi : forall f,
    @get Demo.host 0 (@Shared.objects Demo.host Demo.heap 0 1%nat) (CNum 5)
    = VFun f ->
    @state_independent Demo.host f []
    /\ @Shared.entry_kept Demo.host Demo.heap 1%nat (CNum 5) f [] 0).
  { intros f Hf. vm_compute in Hf. injection Hf as <-.
    split; [intros w w'; reflexivity | by_evaluation]. }
  split; [exact Hv|]. split; [exact Hi|].
  exact (@invoke_twice_same_result Demo.host Demo.heap 1%nat (CNum 5) [] 0
           Hv Hi).
Defined.

(** The handler [() => n++] under one exhaustive dispatcher, built from the
    table at location 0 and invoked twice with the same choice: the first
    call returns 0, the second 1. *)
Lemma counter_invoked_twice_differs :
  @Shared.invoke_twice Demo.host
    (@Shared.basedOn Demo.host Demo.heap) 0%nat
    (CStr "tick") [] 0
  = (Normal (Normal (VNum 0), Normal (VNum 1)), 2)
  /\ @Shared.Index.invoke_twice Demo.host
       (@Shared.Index.basedOn Demo.host Demo.heap)
       0%nat (CStr "tick") 0
     = (Normal (Normal (VNum 0), Normal (VNum 1)), 2)
  /\ (Normal (VNum 0) : completion value) <> Normal (VNum 1).
Proof.
  split; [by_evaluation|]. split; [by_evaluation|]. discriminate.
Qed.

(** ** The further theorems at concrete tables *)

(** [{a: null}] *)
Lemma basedOnPartial_falsy_entry_witness :
  ({[ KStr "a" := VNull ]} : table) !! to_key (CStr "a") = Some VNull
  /\ truthy VNull = false
  /\ @Variadic.invoke Demo.host Variadic.basedOnPartial
       {[ KStr "a" := VNull ]} (CStr "a") [VNum 1] 0
     = (Normal VNull, 0)
  /\ @Index.invoke Demo.host Index.basedOnPartial
       {[ KStr "a" := VNull ]} (CStr "a") 0
     = (Normal VNull, 0).
Proof.
  assert (Hv : ({[ KStr "a" := VNull ]} : table) !! to_key (CStr "a")
               = Some VNull) by by_evaluation.
  split; [exact Hv|]. split; [reflexivity|].
  exact (@basedOnPartial_falsy_entry Demo.host _ _ _ [VNum 1] 0
           Hv eq_refl).
Defined.

(** [{a: 5}] *)
Lemma non_function_entry_throws_witness :
  ({[ KStr "a" := VNum 5 ]} : table) !! to_key (CStr "a") = Some (VNum 5)
  /\ callable (VNum 5) = false
  /\ truthy (VNum 5) = true
  /\ @Variadic.invoke Demo.host Variadic.basedOn
       {[ KStr "a" := VNum 5 ]} (CStr "a") [] 0
     = (Throw TypeError, 0)
  /\ @Index.invoke Demo.host Index.basedOn
       {[ KStr "a" := VNum 5 ]} (CStr "a") 0
     = (Throw TypeError, 0)
  /\ @Variadic.invoke Demo.host Variadic.basedOnPartial
       {[ KStr "a" := VNum 5 ]} (CStr "a") [] 0
     = (Throw TypeError, 0)
  /\ @Index.invoke Demo.host Index.basedOnPartial
       {[ KStr "a" := VNum 5 ]} (CStr "a") 0
     = (Throw TypeError, 0).
Proof.
  assert (Hv : ({[ KStr "a" := VNum 5 ]} : table) !! to_key (CStr "a")
               = Some (VNum 5)) by by_evaluation.
  split; [exact Hv|]. split; [reflexivity|]. split; [reflexivity|].
  destruct (@non_function_entry_throws Demo.host _ _ _ [] 0 Hv eq_refl)
    as (Hvar & Hidx & Hpartial).
  split; [exact Hvar|]. split; [exact Hidx|]. exact (Hpartial eq_refl).
Defined.

(** [{a: undefined, b: () => 'one'}] at ['a']. *)
Lemma modes_agree_iff_truthy_witness :
  truthy (@get Demo.host 0 Demo.holes (CStr "a")) = false
  /\ @Variadic.invoke Demo.host Variadic.basedOn Demo.holes (CStr "a") [] 0
     = (Throw TypeError, 0)
  /\ @Variadic.invoke Demo.host Variadic.basedOnPartial Demo.holes
       (CStr "a") [] 0
     = (Normal (@get Demo.host 0 Demo.holes (CStr "a")), 0)
  /\ @Index.invoke Demo.host Index.basedOn Demo.holes (CStr "a") 0
     = (Throw TypeError, 0)
  /\ @Index.invoke Demo.host Index.basedOnPartial Demo.holes (CStr "a") 0
     = (Normal (@get Demo.host 0 Demo.holes (CStr "a")), 0).
Proof.
  assert (Ht : truthy (@get Demo.host 0 Demo.holes (CStr "a")) = false)
    by by_evaluation.
  split; [exact Ht|].
  destruct (@modes_agree_iff_truthy Demo.host Demo.holes (CStr "a") [] 0)
    as (_ & _ & Hfalsy).
  exact (Hfalsy Ht).
Defined.

(** [convertDigitToNameNoError(100)] and [convertDigitToName(10)] of the
    README. *)
Lemma no_entry_at_all_witness :
  Demo.digits !! to_key (CNum 100) = None
  /\ @inherited Demo.host 0 !! to_key (CNum 100) = None
  /\ @Variadic.invoke Demo.host Variadic.basedOnPartial Demo.digits
       (CNum 100) [] 0
     = (Normal VUndefined, 0)
  /\ @Index.invoke Demo.host Index.basedOnPartial Demo.digits (CNum 100) 0
     = (Normal VUndefined, 0)
  /\ @Variadic.invoke Demo.host Variadic.basedOn Demo.digits (CNum 100) [] 0
     = (Throw TypeError, 0)
  /\ @Index.invoke Demo.host Index.basedOn Demo.digits (CNum 100) 0
     = (Throw TypeError, 0).
Proof.
  assert (Hown : Demo.digits !! to_key (CNum 100) = None) by by_evaluation.
  assert (Hinh : @inherited Demo.host 0 !! to_key (CNum 100) = None)
    by by_evaluation.
  split; [exact Hown|]. split; [exact Hinh|].
  exact (@no_entry_at_all Demo.host Demo.digits (CNum 100) [] 0 Hown Hinh).
Defined.

(** The empty table at ['toString']. *)
Lemma inherited_function_is_called_witness :
  (∅ : table) !! to_key (CStr "toString") = None
  /\ @inherited Demo.host 0 !! to_key (CStr "toString") = Some (VFun 100)
  /\ @Variadic.invoke Demo.host Variadic.basedOn ∅ (CStr "toString") [] 0
     = (Normal (VStr "[object Object]"), 0)
  /\ @Variadic.invoke Demo.host Variadic.basedOnPartial ∅
       (CStr "toString") [] 0
     = (Normal (VStr "[object Object]"), 0)
  /\ @Index.invoke Demo.host Index.basedOn ∅ (CStr "toString") 0
     = (Normal (VStr "[object Object]"), 0)
  /\ @Index.invoke Demo.host Index.basedOnPartial ∅ (CStr "toString") 0
     = (Normal (VStr "[object Object]"), 0).
Proof.
  assert (Hown : (∅ : table) !! to_key (CStr "toString") = None)
    by apply lookup_empty.
  assert (Hinh : @inherited Demo.host 0 !! to_key (CStr "toString")
                 = Some (VFun 100)) by by_evaluation.
  split; [exact Hown|]. split; [exact Hinh|].
  exact (@inherited_function_is_called Demo.host ∅ (CStr "toString")
           100%nat [] 0 Hown Hinh).
Defined.

Lemma index_agrees_with_variadic_witness :
  (forall f, @get Demo.host 0 Demo.digits (CNum 3) = VFun f ->
             @nullary Demo.host f)
  /\ @Variadic.invoke Demo.host Variadic.basedOn Demo.digits (CNum 3)
       [VStr "x"] 0
     = @Index.invoke Demo.host Index.basedOn Demo.digits (CNum 3) 0
  /\ @Variadic.invoke Demo.host Variadic.basedOnPartial Demo.digits (CNum 3)
       [VStr "x"] 0
     = @Index.invoke Demo.host Index.basedOnPartial Demo.digits (CNum 3) 0.
Proof.
  assert (Hnull : forall f, @get Demo.host 0 Demo.digits (CNum 3) = VFun f ->
                            @nullary Demo.host f).
  { intros f Hf. vm_compute in Hf. injection Hf as <-.
    intros args w. reflexivity. }
  split; [exact Hnull|].
  exact (@index_agrees_with_variadic Demo.host Demo.digits (CNum 3)
           [VStr "x"] 0 Hnull).
Defined.

(** The dispatchers are built on the empty object; [late] is stored
    afterwards. *)
Lemma handler_stored_later_is_called_witness :
  @Shared.objects Mutating.host Mutating.heap {[ KStr "late" := VFun 1 ]}
    0%nat
    !! to_key (CStr "late") = Some (VFun 1)
  /\ exists d dp,
      @Shared.basedOn Mutating.host Mutating.heap 0%nat ∅ = (Normal d, ∅)
      /\ @Shared.basedOnPartial Mutating.host Mutating.heap 0%nat ∅
         = (Normal dp, ∅)
      /\ d (CStr "late") [] {[ KStr "late" := VFun 1 ]}
         = (Normal (VStr "late"), {[ KStr "late" := VFun 1 ]})
      /\ dp (CStr "late") [] {[ KStr "late" := VFun 1 ]}
         = (Normal (VStr "late"), {[ KStr "late" := VFun 1 ]}).
Proof.
  assert (Hf : @Shared.objects Mutating.host Mutating.heap
                 {[ KStr "late" := VFun 1 ]} 0%nat
               !! to_key (CStr "late") = Some (VFun 1)) by by_evaluation.
  split; [exact Hf|].
  exact (@handler_stored_later_is_called Mutating.host Mutating.heap 0%nat
           ∅ {[ KStr "late" := VFun 1 ]} (CStr "late") 1%nat [] Hf).
Defined.

(** [{once: () => { delete paths.once; return 'done' }}] *)
Lemma handler_removes_own_entry_witness :
  @Shared.objects Mutating.host Mutating.heap {[ KStr "once" := VFun 0 ]}
    0%nat
    !! to_key (CStr "once") = Some (VFun 0)
  /\ @closures Mutating.host 0%nat [VStr "once"] {[ KStr "once" := VFun 0 ]}
     = (Normal (VStr "done"), delete (KStr "once") {[ KStr "once" := VFun 0 ]})
  /\ @Shared.objects Mutating.host Mutating.heap
       (delete (KStr "once") {[ KStr "once" := VFun 0 ]}) 0%nat
     !! to_key (CStr "once") = None
  /\ @inherited Mutating.host
       (delete (KStr "once") {[ KStr "once" := VFun 0 ]})
     !! to_key (CStr "once") = None
  /\ exists d dp,
      @Shared.basedOn Mutating.host Mutating.heap 0%nat
        {[ KStr "once" := VFun 0 ]}
      = (Normal d, {[ KStr "once" := VFun 0 ]})
      /\ @Shared.basedOnPartial Mutating.host Mutating.heap 0%nat
           {[ KStr "once" := VFun 0 ]}
         = (Normal dp, {[ KStr "once" := VFun 0 ]})
      /\ d (CStr "once") [] {[ KStr "once" := VFun 0 ]}
         = (Normal (VStr "done"),
            delete (KStr "once") {[ KStr "once" := VFun 0 ]})
      /\ d (CStr "once") [] (delete (KStr "once") {[ KStr "once" := VFun 0 ]})
         = (Throw TypeError,
            delete (KStr "once") {[ KStr "once" := VFun 0 ]})
      /\ dp (CStr "once") [] {[ KStr "once" := VFun 0 ]}
         = (Normal (VStr "done"),
            delete (KStr "once") {[ KStr "once" := VFun 0 ]})
      /\ dp (CStr "once") []
           (delete (KStr "once") {[ KStr "once" := VFun 0 ]})
         = (Normal VUndefined,
            delete (KStr "once") {[ KStr "once" := VFun 0 ]}).
Proof.
  assert (Hf : @Shared.objects Mutating.host Mutating.heap
                 {[ KStr "once" := VFun 0 ]} 0%nat
               !! to_key (CStr "once") = Some (VFun 0)) by by_evaluation.
  assert (Hcall : @closures Mutating.host 0%nat [VStr "once"]
                    {[ KStr "once" := VFun 0 ]}
                  = (Normal (VStr "done"),
                     delete (KStr "once") {[ KStr "once" := VFun 0 ]}))
    by reflexivity.
  assert (Hgone : @Shared.objects Mutating.host Mutating.heap
                    (delete (KStr "once") {[ KStr "once" := VFun 0 ]}) 0%nat
                  !! to_key (CStr "once") = None) by by_evaluation.
  assert (Hinh : @inherited Mutating.host
                   (delete (KStr "once") {[ KStr "once" := VFun 0 ]})
                 !! to_key (CStr "once") = None) by by_evaluation.
  split; [exact Hf|]. split; [exact Hcall|]. split; [exact Hgone|].
  split; [exact Hinh|].
  exact (@handler_removes_own_entry Mutating.host Mutating.heap 0%nat
           _ _ (CStr "once") 0%nat [] _ Hf Hcall Hgone Hinh).
Defined.

(** [convertDigitToName(5)] and [convertDigitToName(100)] of the README. *)
Lemma digit_table_in_range_witness :
  Readme.digitNames !! 5%nat = Some "five"
  /\ @Variadic.invoke (Readme.names_host unit Readme.digitNames)
       Variadic.switchOnPartial (Readme.digit_table Readme.digitNames)
       (CNum 5) [] tt
     = (Normal (VStr "five"), tt)
  /\ @Variadic.invoke (Readme.names_host unit Readme.digitNames)
       Variadic.switchOn (Readme.digit_table Readme.digitNames)
       (CNum 5) [] tt
     = (Normal (VStr "five"), tt).
Proof.
  assert (Hs : Readme.digitNames !! 5%nat = Some "five") by reflexivity.
  split; [exact Hs|].
  exact (digit_table_in_range unit Readme.digitNames 5%nat "five" [] tt Hs).
Defined.

Lemma digit_table_out_of_range_witness :
  (100 < 0 \/ Z.of_nat (length Readme.digitNames) <= 100)
  /\ @Variadic.invoke (Readme.names_host unit Readme.digitNames)
       Variadic.switchOnPartial (Readme.digit_table Readme.digitNames)
       (CNum 100) [] tt
     = (Normal VUndefined, tt)
  /\ @Variadic.invoke (Readme.names_host unit Readme.digitNames)
       Variadic.switchOn (Readme.digit_table Readme.digitNames)
       (CNum 100) [] tt
     = (Throw TypeError, tt).
Proof.
  assert (Hout : 100 < 0 \/ Z.of_nat (length Readme.digitNames) <= 100)
    by (right; vm_compute; discriminate).
  split; [exact Hout|].
  exact (digit_table_out_of_range unit Readme.digitNames 100 [] tt Hout).
Defined.
